(** * CORD-19 metadata pipeline: the Cleaner and the Aggregator

    A shallow embedding of [data_analysis.py] ([load_and_clean_data],
    [extract_year], [analyze_data]) together with the fragments of Python's
    [str], [re], [collections.Counter] and pandas that those functions call.

    Modelling conventions.
    - Text is a [string]; the character functions work on its list of
      characters.  Character classes are the ASCII ones: codes above 127 are
      ordinary characters (neither digit, letter, word character nor space)
      and [lower] leaves them alone.
    - A table cell is text, a Python integer, or missing.  A missing cell
      (pandas [NaN]) is the absence of the column's key in the row, so a row
      is a finite map from column names to cells.
    - A [DataFrame] is its list of column labels with its list of rows; a
      [Series] is the list of the cells of one column, in row order.
    - Python exceptions are the [Raise] results of the [res] monad.
    - Column dtypes are not modelled: every column behaves as an object
      column.  [year] values are the integers that pandas may store in a
      float column. *)

From Stdlib Require Import ZArith Lia Ascii String.
From stdpp Require Import base tactics option list sorting strings pretty gmap.

Local Open Scope Z_scope.
Local Open Scope nat_scope.

(** ** Python [str] *)

Module Text.

Definition chars (s : string) : list ascii := String.list_ascii_of_string s.
Definition text (l : list ascii) : string := String.string_of_list_ascii l.

Definition code (c : ascii) : nat := nat_of_ascii c.

Definition in_range (lo hi : nat) (c : ascii) : bool :=
  (lo <=? code c) && (code c <=? hi).

(** [\d] and [[0-9]] *)
Definition is_digit (c : ascii) : bool := in_range 48 57 c.
(** [[a-z]] *)
Definition is_lower (c : ascii) : bool := in_range 97 122 c.
Definition is_upper (c : ascii) : bool := in_range 65 90 c.
(** [\w]: letters, digits and the underscore *)
Definition is_word (c : ascii) : bool :=
  is_lower c || is_upper c || is_digit c || (code c =? 95).
(** [str.isspace]: tab, line feed, vertical tab, form feed, carriage
    return, the four separators 28..31 and the space. *)
Definition is_space (c : ascii) : bool :=
  in_range 9 13 c || in_range 28 32 c.

(** [str.lower] *)
Definition lower_char (c : ascii) : ascii :=
  if is_upper c then ascii_of_nat (code c + 32) else c.
Definition lower (s : string) : string := text (lower_char <$> chars s).

(** [str.strip()] *)
Fixpoint lstrip_chars (l : list ascii) : list ascii :=
  match l with
  | c :: l' => if is_space c then lstrip_chars l' else l
  | [] => []
  end.
Definition strip_chars (l : list ascii) : list ascii :=
  reverse (lstrip_chars (reverse (lstrip_chars l))).
Definition strip (s : string) : string := text (strip_chars (chars s)).

(** The maximal runs of characters satisfying [p], left to right; [cur]
    is the run being read, last character first. *)
Definition flush (cur : list ascii) : list (list ascii) :=
  match cur with [] => [] | _ :: _ => [reverse cur] end.

Fixpoint runs_from (p : ascii → bool) (cur l : list ascii)
  : list (list ascii) :=
  match l with
  | [] => flush cur
  | c :: l' =>
      if p c then runs_from p (c :: cur) l'
      else flush cur ++ runs_from p [] l'
  end.

Definition runs (p : ascii → bool) (l : list ascii) : list (list ascii) :=
  runs_from p [] l.

(** [str.split()] with no argument: the maximal runs of non-space
    characters. *)
Definition split (s : string) : list string :=
  text <$> runs (λ c, negb (is_space c)) (chars s).

(** [sep.join(parts)] *)
Fixpoint join (sep : string) (parts : list string) : string :=
  match parts with
  | [] => ""
  | [p] => p
  | p :: ps => p +:+ sep +:+ join sep ps
  end.

(** [int(s)] on a string of decimal digits *)
Definition digit_val (c : ascii) : Z := Z.of_nat (code c - 48).
Definition int_of_digits (l : list ascii) : Z :=
  foldl (λ acc c, (10 * acc + digit_val c)%Z) 0%Z l.

(** [str(n)] for a Python integer *)
Definition str_of_int (n : Z) : string := pretty n.

End Text.

(** ** Python [re]: the fragment used by the patterns of [data_analysis.py]

    A pattern is a sequence of items: a character class under a greedy
    bounded repetition [{lo,hi}], or the assertion [\b].  A capturing group
    around the whole pattern does not change what is matched, and
    [group(1)] is then the whole match. *)

Module Re.
Import Text.

Inductive item :=
| Class (p : ascii → bool) (lo hi : nat)
| WordB.

Definition regex := list item.

(** [\b]: exactly one of the two neighbours is a word character; the
    outside of the text counts as a non-word character. *)
Definition is_word_opt (c : option ascii) : bool :=
  match c with Some c => is_word c | None => false end.

Definition word_boundary (prev next : option ascii) : bool :=
  xorb (is_word_opt prev) (is_word_opt next).

(** Length of the longest prefix of [l] in the class [p]. *)
Fixpoint prefix_len (p : ascii → bool) (l : list ascii) : nat :=
  match l with
  | c :: l' => if p c then S (prefix_len p l') else 0
  | [] => 0
  end.

(** Greedy choice with backtracking: try [k], [k-1], ..., [lo]. *)
Fixpoint try_down {A} (f : nat → option A) (lo k : nat) : option A :=
  if k <? lo then None
  else match f k with
       | Some r => Some r
       | None => match k with 0 => None | S k' => try_down f lo k' end
       end.

(** The character before the position reached after [k] more characters
    of [l], when [prev] was the character before [l]. *)
Definition prev_after (prev : option ascii) (l : list ascii) (k : nat)
  : option ascii :=
  match k with 0 => prev | S k' => l !! k' end.


(** Match [re] at the start of [l]; [prev] is the character before it.
    The result is the length of the match. *)
Fixpoint match_at (re : regex) (prev : option ascii) (l : list ascii)
  : option nat :=
  match re with
  | [] => Some 0
  | WordB :: re' =>
      if word_boundary prev (head l) then match_at re' prev l else None
  | Class p lo hi :: re' =>
      try_down
        (λ k, (λ n, k + n) <$> match_at re' (prev_after prev l k) (drop k l))
        lo (hi `min` prefix_len p l)
  end.

(** [re.search]: the leftmost match, as (start, matched text). *)
Fixpoint search_from (re : regex) (prev : option ascii) (l : list ascii)
  : option (nat * list ascii) :=
  match match_at re prev l with
  | Some n => Some (0, take n l)
  | None =>
      match l with
      | [] => None
      | c :: l' => prod_map S id <$> search_from re (Some c) l'
      end
  end.

Definition search (re : regex) (s : string) : option (nat * string) :=
  prod_map id text <$> search_from re None (chars s).

(** [re.findall] for a pattern without groups: the non-overlapping
    matches, left to right.  [skip] counts the characters of the last
    match that are still to be passed over. *)
Fixpoint findall_from (re : regex) (prev : option ascii) (skip : nat)
    (l : list ascii) : list (list ascii) :=
  match skip with
  | S skip' =>
      match l with
      | [] => []
      | c :: l' => findall_from re (Some c) skip' l'
      end
  | 0 =>
      match match_at re prev l with
      | Some n =>
          take n l ::
          match l with
          | [] => []
          | c :: l' => findall_from re (Some c) (n - 1) l'
          end
      | None =>
          match l with
          | [] => []
          | c :: l' => findall_from re (Some c) 0 l'
          end
      end
  end.

Definition findall (re : regex) (s : string) : list string :=
  text <$> findall_from re None 0 (chars s).

End Re.

(** ** pandas: cells, rows, frames, and the operations the pipeline calls *)

Module Pandas.
Import Text.

Inductive cell :=
| Str (s : string)
| Num (n : Z).

Global Instance cell_eq_dec : EqDecision cell.
Proof. solve_decision. Defined.

Inductive error :=
| KeyError (label : string)
| AttributeError
| TypeError.

Inductive res (A : Type) :=
| OK (a : A)
| Raise (e : error).
Global Arguments OK {A} a.
Global Arguments Raise {A} e.

Global Instance res_ret : MRet res := @OK.
Global Instance res_bind : MBind res := λ A B f m,
  match m with OK a => f a | Raise e => Raise e end.

(** A row maps a column label to the cell it holds; a label without a
    binding is a missing value. *)
Abbreviation row := (gmap string cell).
Abbreviation Series := (list (option cell)).

Record DataFrame := mkDataFrame {
  columns : list string;
  rows : list row
}.

(** [str(x)] *)
Definition to_str (x : cell) : string :=
  match x with Str s => s | Num n => str_of_int n end.

(** [df[label]] *)
Definition getitem (df : DataFrame) (label : string) : res Series :=
  if decide (label ∈ columns df) then OK ((λ r : row, r !! label) <$> rows df)
  else Raise (KeyError label).

(** [df[[l1, l2, ...]]]: fails on the first label that is not a column. *)
Fixpoint getitems (df : DataFrame) (labels : list string) : res (list Series) :=
  match labels with
  | [] => OK []
  | l :: ls => s ← getitem df l; ss ← getitems df ls; OK (s :: ss)
  end.

Definition set_cell (label : string) (v : option cell) (r : row) : row :=
  match v with Some x => <[label := x]> r | None => delete label r end.

(** [df[label] = values]: an existing column is replaced in place, a new
    one is appended. *)
Definition setitem (df : DataFrame) (label : string) (values : Series)
  : DataFrame :=
  {| columns := if decide (label ∈ columns df) then columns df
                else columns df ++ [label];
     rows := zip_with (set_cell label) values (rows df) |}.

(** [df.dropna(subset=[label])] *)
Definition dropna (df : DataFrame) (label : string) : res DataFrame :=
  if decide (label ∈ columns df) then
    OK {| columns := columns df;
          rows := filter (λ r : row, is_Some (r !! label)) (rows df) |}
  else Raise (KeyError label).

(** [series.dropna()] *)
Definition series_dropna (s : Series) : list cell := omap id s.

(** [df[mask]] for a boolean mask aligned with the rows *)
Fixpoint mask_rows (mask : list bool) (rs : list row) : list row :=
  match mask, rs with
  | b :: mask', r :: rs' =>
      if b then r :: mask_rows mask' rs' else mask_rows mask' rs'
  | _, _ => []
  end.

Definition loc_mask (df : DataFrame) (mask : list bool) : DataFrame :=
  {| columns := columns df; rows := mask_rows mask (rows df) |}.

(** [series > bound]: a missing value compares false, text against a
    number is a [TypeError]. *)
Fixpoint series_gt (s : Series) (bound : Z) : res (list bool) :=
  match s with
  | [] => OK []
  | v :: s' =>
      b ← match v with
          | None => OK false
          | Some (Num n) => OK (bool_decide (bound < n)%Z)
          | Some (Str _) => Raise TypeError
          end;
      bs ← series_gt s' bound;
      OK (b :: bs)
  end.

(** [series != value]: a missing value differs from everything. *)
Definition series_ne (s : Series) (value : cell) : list bool :=
  (λ v, bool_decide (v ≠ Some value)) <$> s.

(** [series.fillna(value)] *)
Definition fillna (s : Series) (value : cell) : Series :=
  (λ v, Some (default value v)) <$> s.

(** The [.str] accessor is refused on a column whose values are all
    numbers; it is accepted on text, on a mix, and on a column without
    any value. *)
Definition is_num (x : cell) : bool :=
  match x with Num _ => true | Str _ => false end.

Definition str_accessor (s : Series) : res unit :=
  match series_dropna s with
  | [] => OK ()
  | x :: xs => if forallb is_num (x :: xs) then Raise AttributeError else OK ()
  end.

(** An element-wise [.str] method gives a missing value on what is not
    text. *)
Definition str_map (f : string → string) (s : Series) : res Series :=
  _ ← str_accessor s;
  OK ((λ v, match v with Some (Str t) => Some (Str (f t)) | _ => None end) <$> s).

(** [series.astype(str)] *)
Definition astype_str (l : list cell) : list string := to_str <$> l.

(** [collections.Counter(xs)]: one entry per distinct element, in the
    order of first occurrence. *)
Fixpoint count_up {A} `{EqDecision A} (x : A) (acc : list (A * nat))
  : list (A * nat) :=
  match acc with
  | [] => [(x, 1)]
  | (y, n) :: acc' =>
      if decide (x = y) then (y, S n) :: acc' else (y, n) :: count_up x acc'
  end.

Definition Counter {A} `{EqDecision A} (xs : list A) : list (A * nat) :=
  foldl (λ acc x, count_up x acc) [] xs.

(** Sorting by insertion, stable: of two entries that compare equal the
    one that came first stays first.  (pandas gives that order on short
    inputs and leaves the order of ties open on long ones; nothing below
    depends on it.) *)
Fixpoint insert_by {A} (le : A → A → bool) (x : A) (l : list A) : list A :=
  match l with
  | [] => [x]
  | y :: l' => if le x y then x :: l else y :: insert_by le x l'
  end.

Definition sort_by {A} (le : A → A → bool) (l : list A) : list A :=
  foldr (insert_by le) [] l.

(** Descending order on the counts *)
Definition count_ge {A} (x y : A * nat) : bool := y.2 <=? x.2.

(** [pd.Series(d).sort_values(ascending=False)] *)
Definition sort_values_desc {A} (l : list (A * nat)) : list (A * nat) :=
  sort_by count_ge l.

(** [series.value_counts()]: missing values are left out, the result is
    in descending order of count. *)
Definition value_counts (s : Series) : list (cell * nat) :=
  sort_values_desc (Counter (series_dropna s)).

(** [.head(n)] *)
Definition head_n {A} (n : nat) (l : list A) : list A := take n l.

(** [.sort_index()]: numbers in increasing order, or text in
    lexicographic order; a mix of both cannot be compared. *)
Definition key_le (x y : cell * nat) : bool :=
  match x.1, y.1 with
  | Num a, Num b => (a <=? b)%Z
  | Str a, Str b => String.leb a b
  | _, _ => true
  end.

Definition sort_index (l : list (cell * nat)) : res (list (cell * nat)) :=
  if forallb (λ e, is_num e.1) l || forallb (λ e, negb (is_num e.1)) l
  then OK (sort_by key_le l)
  else Raise TypeError.

End Pandas.

(** ** data_analysis.py *)

Module DataAnalysis.
Import Text Re Pandas.

(** [r'(\d{4})'] *)
Definition year_pattern : regex := [Class is_digit 4 4].

(** [r'\b[a-z]{3,15}\b'] *)
Definition word_pattern : regex := [WordB; Class is_lower 3 15; WordB].

Definition stopwords : gset string :=
  {[ "the"; "and"; "of"; "in"; "to"; "a"; "for"; "with"; "on"; "by";
     "as"; "an"; "from"; "that"; "is"; "are"; "this"; "which"; "be"; "at" ]}.

(** [extract_year]: the function applied to each cell of [publish_time].
    [int] of four digits cannot fail, so the [except] branch is never
    taken. *)
Definition extract_year (date_str : option cell) : option cell :=
  match date_str with
  | None => None
  | Some x =>
      match search year_pattern (to_str x) with
      | Some (_, group1) => Some (Num (int_of_digits (chars group1)))
      | None => None
      end
  end.

(** [lambda x: len(str(x).split()) if pd.notnull(x) else 0] *)
Definition abstract_word_count (x : option cell) : option cell :=
  match x with
  | Some x => Some (Num (Z.of_nat (length (split (to_str x)))))
  | None => Some (Num 0)
  end.

(** [load_and_clean_data], from the table that [pd.read_csv] returned. *)
Definition load_and_clean_data (df : DataFrame) : res DataFrame :=
  _ ← getitems df ["title"; "abstract"; "journal"; "publish_time"];
  df_clean ← dropna df "title";
  publish_time ← getitem df_clean "publish_time";
  let df_clean := setitem df_clean "year" (extract_year <$> publish_time) in
  df_clean ← dropna df_clean "year";
  year ← getitem df_clean "year";
  mask ← series_gt year 2000;
  let df_clean := loc_mask df_clean mask in
  abstract ← getitem df_clean "abstract";
  let df_clean :=
    setitem df_clean "abstract_word_count" (abstract_word_count <$> abstract) in
  journal ← getitem df_clean "journal";
  let df_clean := setitem df_clean "journal" (fillna journal (Str "Unknown")) in
  journal ← getitem df_clean "journal";
  stripped ← str_map strip journal;
  OK (setitem df_clean "journal" stripped).

(** The five views returned by [analyze_data]. *)
Record Views := mkViews {
  year_counts : list (cell * nat);
  top_journals : list (cell * nat);
  title_words : list (string * nat);
  abstract_lengths : Series;
  source_counts : list (cell * nat)
}.

Definition all_titles (title : Series) : string :=
  join " " (lower <$> astype_str (series_dropna title)).

Definition filtered_words (text : string) : list (string * nat) :=
  filter (λ e, e.1 ∉ stopwords) (Counter (findall word_pattern text)).

Definition analyze_data (df_clean : DataFrame) : res Views :=
  year ← getitem df_clean "year";
  year_counts ← sort_index (value_counts year);
  journal ← getitem df_clean "journal";
  let known_journals := loc_mask df_clean (series_ne journal (Str "Unknown")) in
  journal ← getitem known_journals "journal";
  let top_journals := head_n 15 (value_counts journal) in
  title ← getitem df_clean "title";
  let title_words :=
    head_n 20 (sort_values_desc (filtered_words (all_titles title))) in
  abstract_lengths ← getitem df_clean "abstract_word_count";
  source_x ← getitem df_clean "source_x";
  let source_counts := head_n 10 (value_counts source_x) in
  OK (mkViews year_counts top_journals title_words abstract_lengths
        source_counts).

(** The table that [pd.read_csv] builds from a file whose fields are all
    text: an empty field is a missing value. *)
Definition read_csv (header : list string) (records : list (gmap string string))
  : DataFrame :=
  {| columns := header; rows := (λ r : gmap string string, Str <$> r) <$> records |}.

End DataAnalysis.

(** ** The vocabulary of the specification *)

Module Spec.
Import Text Re Pandas DataAnalysis.

(** Four consecutive digit characters start at position [i] of [l]. *)
Definition four_digits_at (l : list ascii) (i : nat) : Prop :=
  ∀ k, k < 4 → ∃ c, l !! (i + k) = Some c ∧ is_digit c = true.










(** The year that the Cleaner reads in a row, when there is one. *)
Definition year_of (r : row) : option Z :=
  match extract_year (r !! "publish_time") with
  | Some (Num y) => Some y
  | _ => None
  end.

(** A raw row survives cleaning when its title is present and its year
    is read and is after 2000. *)
Definition survives (r : row) : bool :=
  bool_decide (is_Some (r !! "title")) &&
  match year_of r with Some y => bool_decide (2000 < y)%Z | None => false end.


(** The columns that the Cleaner needs. *)
Definition required_columns : list string :=
  ["title"; "abstract"; "journal"; "publish_time"].

(** The column labels after an assignment to column [c]. *)
Definition with_column (cols : list string) (c : string) : list string :=
  if decide (c ∈ cols) then cols else cols ++ [c].

(** What cleaning makes of the journal cell. *)
Definition clean_journal (v : option cell) : option cell :=
  match v with
  | None => Some (Str "Unknown")
  | Some (Str s) => Some (Str (strip s))
  | Some (Num _) => None
  end.

(** What cleaning makes of a surviving row. *)
Definition clean_row (r : row) : row :=
  set_cell "journal" (clean_journal (r !! "journal"))
    (set_cell "abstract_word_count" (abstract_word_count (r !! "abstract"))
       (set_cell "year" (extract_year (r !! "publish_time")) r)).

(** The cleaned table, in one step. *)
Definition cleaned (df : DataFrame) : DataFrame :=
  {| columns := with_column (with_column (columns df) "year")
                  "abstract_word_count";
     rows := clean_row <$> filter (λ r, survives r = true) (rows df) |}.

(** The journal column as the [.str] accessor meets it. *)
Definition filled_journal (df : DataFrame) : Series :=
  (λ r : row, Some (default (Str "Unknown") (r !! "journal"))) <$>
    filter (λ r, survives r = true) (rows df).

(** Number of occurrences of [x] in [xs]. *)
Definition occurrences {A} `{EqDecision A} (x : A) (xs : list A) : nat :=
  length (filter (λ y, y = x) xs).

(** [acc] is a tally of [xs]: one entry per element that occurs, with the
    number of its occurrences. *)
Definition tally_of {A} `{EqDecision A} (acc : list (A * nat)) (xs : list A)
  : Prop :=
  NoDup acc.*1 ∧
  ∀ x n, (x, n) ∈ acc ↔ n = occurrences x xs ∧ 0 < n.

(** The counts never increase along the list. *)
Definition descending {A} (l : list (A * nat)) : Prop :=
  ∀ i j a b, i < j → l !! i = Some a → l !! j = Some b → b.2 ≤ a.2.

End Spec.

(** ** Sample tables *)

Module Samples.
Import Text Re Pandas DataAnalysis Spec.

Definition header : list string :=
  ["cord_uid"; "title"; "abstract"; "journal"; "publish_time"; "authors";
   "url"; "source_x"].

(** Five raw records: two survive cleaning, one is too old, one has no
    year, one has no title. *)
Definition records : list (gmap string string) :=
  [ {[ "cord_uid" := "a1"; "title" := "COVID and the Immune Response";
       "abstract" := "a b  c"; "journal" := "  Nature  ";
       "publish_time" := "2021-03-15"; "source_x" := "PMC" ]};
    {[ "cord_uid" := "a2"; "title" := "Masks in the pandemic";
       "publish_time" := "15/06/2020" ]};
    {[ "cord_uid" := "a3"; "title" := "old"; "journal" := "BMJ";
       "publish_time" := "1999-01-01"; "source_x" := "WHO" ]};
    {[ "cord_uid" := "a4"; "title" := "undated"; "journal" := "BMJ";
       "publish_time" := "unknown date" ]};
    {[ "cord_uid" := "a5"; "abstract" := "no title"; "journal" := "BMJ";
       "publish_time" := "2020" ]} ].

(** The table that the Cleaner returns ([df] itself if it raises). *)
Definition run_cleaner (df : DataFrame) : DataFrame :=
  match load_and_clean_data df with OK d => d | Raise _ => df end.

Definition raw : DataFrame := read_csv header records.
Definition clean : DataFrame := run_cleaner raw.
Definition views : Views :=
  match analyze_data clean with
  | OK v => v
  | Raise _ => mkViews [] [] [] [] []
  end.







End Samples.

Import Text Re Pandas DataAnalysis Spec.

(** * Facts about text *)

Section text_facts.







Lemma is_digit_word c : is_digit c = true → is_word c = true.
Proof. unfold is_word. intros ->. by rewrite !orb_true_r. Qed.



















End text_facts.

(** * Facts about the year pattern *)

Section year_pattern_facts.




Lemma four_digits_at_S a l i : four_digits_at (a :: l) (S i) ↔ four_digits_at l i.
Proof. done. Qed.








End year_pattern_facts.

(** * Facts about the word pattern *)

Section word_pattern_facts.






















End word_pattern_facts.

(** * Facts about counting and sorting *)

Section counting_facts.
Context {A : Type} `{EqDecision A}.
Implicit Types (x y : A) (xs : list A) (acc : list (A * nat)).

Lemma occurrences_snoc x xs y :
  occurrences x (xs ++ [y]) =
    occurrences x xs + (if decide (y = x) then 1 else 0).
Proof.
  unfold occurrences. rewrite filter_app, length_app. f_equal.
  rewrite filter_cons, filter_nil. by destruct (decide (y = x)).
Qed.

Lemma occurrences_pos x xs : 0 < occurrences x xs ↔ x ∈ xs.
Proof.
  unfold occurrences. split.
  - intros H. destruct (filter (λ y, y = x) xs) as [|z l] eqn:E;
      [simpl in H; lia |].
    assert (Hz : z ∈ filter (λ y, y = x) xs) by (rewrite E; left).
    apply list_elem_of_filter in Hz as [-> ?]. done.
  - intros H.
    assert (Hx : x ∈ filter (λ y, y = x) xs) by by apply list_elem_of_filter.
    destruct (filter (λ y, y = x) xs); [by apply elem_of_nil in Hx |].
    simpl. lia.
Qed.

Lemma count_up_fresh x acc :
  x ∉ acc.*1 → count_up x acc = acc ++ [(x, 1)].
Proof.
  induction acc as [|[y n] acc IH]; intros Hx; [done |].
  simpl in *. apply not_elem_of_cons in Hx as [Hne Hx].
  rewrite decide_False by done. by rewrite IH.
Qed.

Lemma count_up_seen x n l1 l2 :
  x ∉ l1.*1 →
  count_up x (l1 ++ (x, n) :: l2) = l1 ++ (x, S n) :: l2.
Proof.
  induction l1 as [|[y m] l1 IH]; intros Hx; simpl.
  - by rewrite decide_True.
  - simpl in Hx. apply not_elem_of_cons in Hx as [Hne Hx].
    rewrite decide_False by done. by rewrite IH.
Qed.

Lemma tally_of_step acc xs x :
  tally_of acc xs → tally_of (count_up x acc) (xs ++ [x]).
Proof.
  intros [Hnd Hacc].
  destruct (decide (x ∈ acc.*1)) as [Hin | Hnin].
  - apply list_elem_of_fmap in Hin as [[x' n0] [-> Hin]]. simpl.
    destruct (list_elem_of_split _ _ Hin) as (l1 & l2 & ->).
    rewrite fmap_app, fmap_cons in Hnd. simpl in Hnd.
    apply NoDup_app in Hnd as (Hnd1 & Hdisj & Hnd2).
    apply NoDup_cons in Hnd2 as [Hx2 Hnd2].
    assert (Hx1 : x' ∉ l1.*1). { intros H1. apply (Hdisj x' H1). left. }
    rewrite count_up_seen by done.
    apply Hacc in Hin as [Hn0 Hpos].
    split.
    + rewrite fmap_app, fmap_cons. simpl.
      apply NoDup_app. split_and!; [done | done | by apply NoDup_cons].
    + intros y n. rewrite occurrences_snoc.
      rewrite elem_of_app, elem_of_cons.
      specialize (Hacc y n). rewrite elem_of_app, elem_of_cons in Hacc.
      destruct (decide (x' = y)) as [<- | Hne].
      * split.
        -- intros [H1 | [[= ->] | H2]].
           ++ destruct Hx1. apply list_elem_of_fmap. by exists (x', n).
           ++ lia.
           ++ destruct Hx2. apply list_elem_of_fmap. by exists (x', n).
        -- intros [-> _]. right. left. f_equal. lia.
      * rewrite Nat.add_0_r. rewrite <- Hacc. split.
        -- intros [H1 | [[= -> ->] | H2]]; [by left | done | by right; right].
        -- intros [H1 | [[= -> ->] | H2]]; [by left | done | by right; right].
  - rewrite count_up_fresh by done.
    assert (Hzero : occurrences x xs = 0).
    { destruct (occurrences x xs) as [|k] eqn:E; [done |].
      destruct Hnin. apply list_elem_of_fmap. exists (x, S k).
      split; [done |]. apply Hacc. split; [done | lia]. }
    split.
    + rewrite fmap_app. simpl. apply NoDup_app. split_and!; [done | |].
      * intros y Hy Hy'. apply list_elem_of_singleton in Hy' as ->. done.
      * apply NoDup_singleton.
    + intros y n. rewrite occurrences_snoc, elem_of_app, list_elem_of_singleton.
      specialize (Hacc y n).
      destruct (decide (x = y)) as [<- | Hne].
      * rewrite Hzero. split.
        -- intros [H1 | [= ->]]; [| lia].
           apply Hacc in H1. lia.
        -- intros [-> _]. by right.
      * rewrite Nat.add_0_r, <- Hacc. split; [| by left].
        intros [H1 | [= -> ->]]; done.
Qed.

Lemma tally_of_foldl acc xs0 xs :
  tally_of acc xs0 →
  tally_of (foldl (λ acc x, count_up x acc) acc xs) (xs0 ++ xs).
Proof.
  revert acc xs0. induction xs as [|x xs IH]; intros acc xs0 H; simpl.
  - by rewrite app_nil_r.
  - replace (xs0 ++ x :: xs) with ((xs0 ++ [x]) ++ xs)
      by by rewrite <- app_assoc.
    apply IH. by apply tally_of_step.
Qed.

Lemma Counter_tally xs : tally_of (Counter xs) xs.
Proof.
  apply (tally_of_foldl [] [] xs). split; [constructor |].
  intros x n. split; [by intros ?%elem_of_nil |].
  intros [-> H]. unfold occurrences in H. simpl in H. lia.
Qed.

Lemma elem_of_Counter xs x n :
  (x, n) ∈ Counter xs ↔ n = occurrences x xs ∧ x ∈ xs.
Proof.
  destruct (Counter_tally xs) as [_ H]. rewrite H.
  split; intros [-> H1]; (split; [done |]); by apply occurrences_pos.
Qed.

Lemma NoDup_Counter xs : NoDup (Counter xs).*1.
Proof. apply Counter_tally. Qed.

Lemma count_up_total x acc :
  sum_list (count_up x acc).*2 = S (sum_list acc.*2).
Proof.
  induction acc as [|[y n] acc IH]; csimpl; [done |].
  destruct (decide (x = y)); csimpl; [done |]. rewrite IH. lia.
Qed.

Lemma Counter_total xs : sum_list (Counter xs).*2 = length xs.
Proof.
  unfold Counter.
  assert (H : ∀ acc, sum_list (foldl (λ acc x, count_up x acc) acc xs).*2 =
            sum_list acc.*2 + length xs).
  { induction xs as [|x xs IH]; intros acc; cbn [foldl length]; [lia |].
    rewrite IH, count_up_total. lia. }
  by rewrite H.
Qed.

End counting_facts.

Section sorting_facts.
Context {A : Type} (le : A → A → bool).
Hypothesis le_total : ∀ x y, le x y = false → le y x = true.
Hypothesis le_trans : ∀ x y z, le x y = true → le y z = true → le x z = true.

Lemma insert_by_perm x l : insert_by le x l ≡ₚ x :: l.
Proof.
  induction l as [|y l IH]; simpl; [done |].
  destruct (le x y); [done |]. rewrite IH. apply Permutation_swap.
Qed.

Lemma sort_by_perm l : sort_by le l ≡ₚ l.
Proof.
  induction l as [|x l IH]; simpl; [done |].
  unfold sort_by in *. simpl. by rewrite insert_by_perm, IH.
Qed.

Lemma insert_by_sorted x l :
  StronglySorted (λ a b, le a b = true) l →
  StronglySorted (λ a b, le a b = true) (insert_by le x l).
Proof.
  induction 1 as [|y l Hl IH Hy]; simpl; [by repeat constructor |].
  destruct (le x y) eqn:E.
  - constructor; [by constructor |]. constructor; [done |].
    eapply Forall_impl; [exact Hy |]. intros z Hz. by eapply le_trans.
  - constructor; [done |].
    rewrite (insert_by_perm x l). constructor; [by apply le_total | done].
Qed.

Lemma sort_by_sorted l : StronglySorted (λ a b, le a b = true) (sort_by le l).
Proof.
  induction l as [|x l IH]; [constructor |].
  unfold sort_by in *. simpl. by apply insert_by_sorted.
Qed.

End sorting_facts.

Section sort_values_facts.
Context {A : Type}.
Implicit Types l : list (A * nat).

Lemma sort_values_desc_perm l : sort_values_desc l ≡ₚ l.
Proof. apply sort_by_perm. Qed.

Lemma elem_of_sort_values_desc l e : e ∈ sort_values_desc l ↔ e ∈ l.
Proof. by rewrite sort_values_desc_perm. Qed.

Lemma StronglySorted_lookup (R : relation (A * nat)) l i j a b :
  StronglySorted R l → i < j → l !! i = Some a → l !! j = Some b → R a b.
Proof.
  intros Hs. revert i j. induction Hs as [|x l Hl IH Hx]; intros i j Hij Hi Hj.
  - done.
  - destruct j as [|j]; [lia |]. destruct i as [|i]; simpl in *.
    + injection Hi as ->. rewrite Forall_forall in Hx. apply Hx.
      by eapply list_elem_of_lookup_2.
    + apply (IH i j); [lia | done | done].
Qed.

Lemma sort_values_desc_descending l : descending (sort_values_desc l).
Proof.
  intros i j a b Hij Hi Hj.
  assert (H : count_ge a b = true).
  { eapply (StronglySorted_lookup (λ a b, count_ge a b = true));
      [| exact Hij | exact Hi | exact Hj].
    apply sort_by_sorted.
    - intros x y H. unfold count_ge in *.
      apply Nat.leb_gt in H. apply Nat.leb_le. lia.
    - intros x y z H1 H2. unfold count_ge in *.
      apply Nat.leb_le in H1, H2. apply Nat.leb_le. lia. }
  unfold count_ge in H. by apply Nat.leb_le.
Qed.

Lemma descending_take n l : descending l → descending (take n l).
Proof.
  intros H i j a b Hij Hi Hj.
  apply lookup_take_Some in Hi as [Hi _], Hj as [Hj _]. by eapply H.
Qed.


End sort_values_facts.

(** * Facts about the table operations *)

Section pandas_facts.
Implicit Types (df : DataFrame) (r : row) (c : string).

Lemma bind_OK {A B} (a : A) (f : A → res B) : (OK a ≫= f) = f a.
Proof. done. Qed.

Lemma bind_OK_inv {A B} (m : res A) (f : A → res B) b :
  (m ≫= f) = OK b → ∃ a, m = OK a ∧ f a = OK b.
Proof. destruct m as [a|e]; [by exists a | done]. Qed.

Lemma getitem_OK df c :
  c ∈ columns df → getitem df c = OK ((λ r, r !! c) <$> rows df).
Proof. intros H. unfold getitem. by rewrite decide_True. Qed.

Lemma getitem_inv df c s :
  getitem df c = OK s →
  c ∈ columns df ∧ s = (λ r, r !! c) <$> rows df.
Proof. unfold getitem. case_decide; [by intros [= <-] | done]. Qed.


Lemma getitems_OK df ls :
  (∀ c, c ∈ ls → c ∈ columns df) → ∃ ss, getitems df ls = OK ss.
Proof.
  induction ls as [|l ls IH]; intros H; [by eexists |].
  destruct IH as [ss Hss]; [intros c Hc; apply H; by right |].
  simpl. rewrite getitem_OK by (apply H; left). rewrite bind_OK, Hss.
  by eexists.
Qed.

Lemma getitems_inv df ls ss :
  getitems df ls = OK ss → ∀ c, c ∈ ls → c ∈ columns df.
Proof.
  revert ss. induction ls as [|l ls IH]; intros ss H c Hc;
    [by apply elem_of_nil in Hc |].
  simpl in H. apply bind_OK_inv in H as (s & Hs & H).
  apply bind_OK_inv in H as (ss' & Hss & _).
  apply elem_of_cons in Hc as [-> | Hc]; [by apply getitem_inv in Hs as [? _] |].
  by eapply IH.
Qed.

Lemma dropna_OK df c :
  c ∈ columns df →
  dropna df c =
    OK {| columns := columns df;
          rows := filter (λ r, is_Some (r !! c)) (rows df) |}.
Proof. intros H. unfold dropna. by rewrite decide_True. Qed.

Lemma zip_with_diag {X Y} (f : X → row → Y) (g : row → X) (l : list row) :
  zip_with f (g <$> l) l = (λ r, f (g r) r) <$> l.
Proof. induction l as [|r l IH]; csimpl; [done | by rewrite IH]. Qed.

Lemma setitem_apply df c c' (g : option cell → option cell) :
  setitem df c (g <$> ((λ r, r !! c') <$> rows df)) =
    {| columns := with_column (columns df) c;
       rows := (λ r, set_cell c (g (r !! c')) r) <$> rows df |}.
Proof.
  unfold setitem, with_column. f_equal.
  by rewrite <- list_fmap_compose, zip_with_diag.
Qed.

Lemma mask_rows_diag (f : row → bool) (l : list row) :
  mask_rows (f <$> l) l = filter (λ r, f r = true) l.
Proof.
  induction l as [|r l IH]; [done |]. csimpl.
  rewrite filter_cons, IH. by destruct (f r).
Qed.

Lemma loc_mask_apply df c (g : option cell → bool) :
  loc_mask df (g <$> ((λ r, r !! c) <$> rows df)) =
    {| columns := columns df;
       rows := filter (λ r, g (r !! c) = true) (rows df) |}.
Proof.
  unfold loc_mask. f_equal. by rewrite <- list_fmap_compose, mask_rows_diag.
Qed.

Lemma series_gt_OK (s : Series) bound :
  Forall (λ v, ∀ t, v ≠ Some (Str t)) s →
  series_gt s bound =
    OK ((λ v, match v with
              | Some (Num n) => bool_decide (bound < n)%Z
              | _ => false
              end) <$> s).
Proof.
  induction 1 as [|v s Hv Hs IH]; [done |].
  cbn [series_gt]. rewrite IH.
  destruct v as [[t|n]|]; [by destruct (Hv t) | done | done].
Qed.

Lemma lookup_set_cell c v r c' :
  set_cell c v r !! c' = if decide (c = c') then v else r !! c'.
Proof.
  unfold set_cell. destruct v; case_decide; subst;
    by rewrite ?lookup_insert_eq, ?lookup_insert_ne, ?lookup_delete_eq,
               ?lookup_delete_ne.
Qed.

Lemma lookup_set_cell_eq c v r : set_cell c v r !! c = v.
Proof. rewrite lookup_set_cell. by case_decide. Qed.

Lemma lookup_set_cell_ne c v r c' : c ≠ c' → set_cell c v r !! c' = r !! c'.
Proof. intros H. rewrite lookup_set_cell. by case_decide. Qed.

Lemma set_cell_set_cell c v w r :
  set_cell c v (set_cell c w r) = set_cell c v r.
Proof.
  unfold set_cell. destruct v, w;
    by rewrite ?insert_insert_eq, ?insert_delete_eq, ?delete_insert_eq,
               ?delete_delete_eq.
Qed.

Lemma elem_of_with_column cols c c' :
  c' ∈ with_column cols c ↔ c' ∈ cols ∨ c' = c.
Proof.
  unfold with_column. case_decide.
  - split; [by left | by intros [? | ->]].
  - by rewrite elem_of_app, list_elem_of_singleton.
Qed.


End pandas_facts.

(** * The Cleaner, step by step and in one step *)

Section cleaner_facts.
Implicit Types (df : DataFrame) (r : row) (c : string).

Lemma extract_year_not_str v t : extract_year v ≠ Some (Str t).
Proof.
  unfold extract_year. destruct v as [x|]; [| done].
  by destruct (search year_pattern (to_str x)) as [[? ?]|].
Qed.

Lemma survives_true r :
  survives r = true ↔
    is_Some (r !! "title") ∧
    ∃ y, extract_year (r !! "publish_time") = Some (Num y) ∧ (2000 < y)%Z.
Proof.
  unfold survives, year_of. rewrite andb_true_iff, bool_decide_eq_true.
  apply and_iff_compat_l.
  destruct (extract_year (r !! "publish_time")) as [[t|n]|] eqn:E.
  - split; [done | by intros (y & ? & _)].
  - rewrite bool_decide_eq_true. split; [by exists n |].
    by intros (y & [= ->] & ?).
  - split; [done | by intros (y & ? & _)].
Qed.

Lemma filter_fmap {X Y} (f : X → Y) (P : Y → Prop) `{∀ y, Decision (P y)}
    (l : list X) :
  filter P (f <$> l) = f <$> filter (λ x, P (f x)) l.
Proof.
  induction l as [|x l IH]; [done |]. csimpl.
  rewrite !filter_cons, IH. by destruct (decide (P (f x))).
Qed.

Lemma survivors_steps (l : list row) :
  filter (λ r, match r !! "year" with
               | Some (Num n) => bool_decide (2000 < n)%Z
               | _ => false
               end = true)
    (filter (λ r, is_Some (r !! "year"))
       ((λ r, set_cell "year" (extract_year (r !! "publish_time")) r) <$>
          filter (λ r, is_Some (r !! "title")) l)) =
  (λ r, set_cell "year" (extract_year (r !! "publish_time")) r) <$>
    filter (λ r, survives r = true) l.
Proof.
  rewrite list_filter_filter, filter_fmap, list_filter_filter. f_equal.
  apply list_filter_iff. intros r. rewrite survives_true.
  rewrite lookup_set_cell_eq.
  destruct (extract_year (r !! "publish_time")) as [[t|n]|] eqn:E.
  - by destruct (extract_year_not_str _ _ E).
  - rewrite bool_decide_eq_true. split.
    + intros [[? _] ?]. split; [done |]. by exists n.
    + intros [? (y & [= ->] & ?)]. done.
  - split; [by intros [[_ [? ?]] _] | by intros [_ (y & ? & _)]].
Qed.

Lemma clean_row_steps r :
  let r2 := set_cell "year" (extract_year (r !! "publish_time")) r in
  let r5 := set_cell "abstract_word_count"
              (abstract_word_count (r2 !! "abstract")) r2 in
  let r6 := set_cell "journal"
              (Some (default (Str "Unknown") (r5 !! "journal"))) r5 in
  set_cell "journal"
    (match r6 !! "journal" with
     | Some (Str t) => Some (Str (strip t))
     | _ => None
     end) r6 = clean_row r.
Proof.
  intros r2 r5 r6. subst r6. rewrite set_cell_set_cell.
  rewrite lookup_set_cell_eq.
  subst r5. rewrite !lookup_set_cell_ne by done.
  subst r2. rewrite !lookup_set_cell_ne by done.
  unfold clean_row. f_equal.
  by destruct (r !! "journal") as [[t|n]|].
Qed.

Lemma filled_journal_steps (l : list row) :
  (λ r, r !! "journal") <$>
    ((λ r, set_cell "journal"
             (Some (default (Str "Unknown") (r !! "journal"))) r) <$>
       ((λ r, set_cell "abstract_word_count"
                (abstract_word_count (r !! "abstract")) r) <$>
          ((λ r, set_cell "year" (extract_year (r !! "publish_time")) r) <$>
             l))) =
  (λ r : row, Some (default (Str "Unknown") (r !! "journal"))) <$> l.
Proof.
  rewrite <- !list_fmap_compose. apply list_fmap_ext. intros _ r _.
  unfold compose. rewrite lookup_set_cell_eq.
  by rewrite !lookup_set_cell_ne.
Qed.

(** The steps of [load_and_clean_data] amount to: check the columns,
    keep the surviving rows, rewrite each of them, and let the [.str]
    accessor look at the journal column. *)
Lemma load_and_clean_data_eq df :
  (∀ c, c ∈ required_columns → c ∈ columns df) →
  load_and_clean_data df =
    (str_accessor (filled_journal df) ≫= λ _, OK (cleaned df)).
Proof.
  intros Hreq. unfold load_and_clean_data.
  assert (Ht : "title" ∈ columns df) by (apply Hreq; set_solver).
  assert (Ha : "abstract" ∈ columns df) by (apply Hreq; set_solver).
  assert (Hj : "journal" ∈ columns df) by (apply Hreq; set_solver).
  assert (Hp : "publish_time" ∈ columns df) by (apply Hreq; set_solver).
  destruct (getitems_OK df required_columns Hreq) as [ss Hss].
  unfold required_columns in Hss. rewrite Hss, bind_OK.
  rewrite dropna_OK, bind_OK by done.
  rewrite getitem_OK, bind_OK by done. cbv zeta.
  rewrite (setitem_apply _ "year" "publish_time" extract_year).
  rewrite dropna_OK, bind_OK
    by (cbn [columns]; rewrite ?elem_of_with_column; auto).
  rewrite getitem_OK, bind_OK
    by (cbn [columns]; rewrite ?elem_of_with_column; auto).
  rewrite series_gt_OK, bind_OK.
  2:{ cbn [rows]. apply Forall_fmap, Forall_forall. intros r Hr t. simpl.
      apply list_elem_of_filter in Hr as [_ Hr].
      apply list_elem_of_fmap in Hr as (r0 & -> & _).
      rewrite lookup_set_cell_eq. apply extract_year_not_str. }
  rewrite (loc_mask_apply _ "year").
  rewrite getitem_OK, bind_OK
    by (cbn [columns]; rewrite ?elem_of_with_column; auto).
  rewrite (setitem_apply _ "abstract_word_count" "abstract"
             abstract_word_count).
  rewrite getitem_OK, bind_OK
    by (cbn [columns]; rewrite ?elem_of_with_column; auto).
  unfold fillna.
  rewrite (setitem_apply _ "journal" "journal"
             (λ v, Some (default (Str "Unknown") v))).
  rewrite getitem_OK, bind_OK
    by (cbn [columns]; rewrite ?elem_of_with_column; auto).
  unfold str_map. cbn [rows columns].
  rewrite survivors_steps, filled_journal_steps. fold (filled_journal df).
  destruct (str_accessor (filled_journal df)) as [[]|e]; [| done].
  rewrite !bind_OK. f_equal.
  set (g := λ v, match v with
                 | Some (Str t) => Some (Str (strip t))
                 | _ => None
                 end).
  unfold filled_journal.
  rewrite <- (filled_journal_steps (filter (λ r, survives r = true) (rows df))).
  set (rs := (λ r, set_cell "journal"
               (Some (default (Str "Unknown") (r !! "journal"))) r) <$> _).
  unfold setitem. cbn [rows columns]. unfold cleaned. f_equal.
  - rewrite decide_True by (rewrite ?elem_of_with_column; auto).
    unfold with_column at 1.
    by rewrite decide_True by (rewrite ?elem_of_with_column; auto).
  - change (zip_with (set_cell "journal")
              ((λ v, g v) <$> ((λ r, r !! "journal") <$> rs)) rs =
            clean_row <$> filter (λ r, survives r = true) (rows df)).
    rewrite <- list_fmap_compose, zip_with_diag. subst rs.
    rewrite <- !list_fmap_compose. apply list_fmap_ext. intros _ r _.
    apply clean_row_steps.
Qed.

Lemma load_and_clean_data_inv df d :
  load_and_clean_data df = OK d →
  (∀ c, c ∈ required_columns → c ∈ columns df) ∧ d = cleaned df.
Proof.
  intros H.
  assert (Hreq : ∀ c, c ∈ required_columns → c ∈ columns df).
  { unfold load_and_clean_data in H.
    apply bind_OK_inv in H as (ss & Hss & _). by eapply getitems_inv. }
  split; [done |]. rewrite load_and_clean_data_eq in H by done.
  apply bind_OK_inv in H as (? & _ & H). by injection H.
Qed.



End cleaner_facts.

(** * The Aggregator, view by view *)

Section aggregator_facts.
Implicit Types (df : DataFrame) (r : row) (c : string) (s : Series).

Lemma elem_of_series_dropna s k : k ∈ series_dropna s ↔ Some k ∈ s.
Proof.
  unfold series_dropna. rewrite list_elem_of_omap. split.
  - intros (v & Hv & E). unfold id in E. by subst v.
  - intros H. by exists (Some k).
Qed.

Lemma occurrences_column (l : list row) c k :
  occurrences k (series_dropna ((λ r, r !! c) <$> l)) =
    length (filter (λ r, r !! c = Some k) l).
Proof.
  unfold occurrences, series_dropna.
  induction l as [|r l IH]; [done |]. csimpl.
  rewrite (filter_cons (λ r, r !! c = Some k)).
  destruct (r !! c) as [x|] eqn:E.
  - rewrite filter_cons.
    repeat case_decide; simplify_eq; cbn [length]; by rewrite ?IH.
  - case_decide; simplify_eq. done.
Qed.

Lemma elem_of_value_counts s k n :
  (k, n) ∈ value_counts s ↔
    n = occurrences k (series_dropna s) ∧ Some k ∈ s.
Proof.
  unfold value_counts.
  by rewrite elem_of_sort_values_desc, elem_of_Counter, elem_of_series_dropna.
Qed.

Lemma value_counts_total s :
  sum_list (value_counts s).*2 = length (series_dropna s).
Proof.
  unfold value_counts. rewrite sort_values_desc_perm. apply Counter_total.
Qed.

Lemma length_series_dropna (l : list row) c :
  length (series_dropna ((λ r, r !! c) <$> l)) =
    length (filter (λ r, is_Some (r !! c)) l).
Proof.
  unfold series_dropna. induction l as [|r l IH]; [done |]. csimpl.
  rewrite filter_cons. destruct (r !! c) as [x|] eqn:E; unfold id at 1.
  - rewrite decide_True by done. cbn [length]. by rewrite <- IH.
  - rewrite decide_False by (by intros [? ?]). done.
Qed.

Lemma sum_list_take_le (l : list nat) n : sum_list (take n l) ≤ sum_list l.
Proof.
  rewrite <- (take_drop n l) at 2. rewrite sum_list_with_app. lia.
Qed.


(** What [analyze_data] needs and what it returns. *)
Lemma analyze_data_inv df v :
  analyze_data df = OK v →
  "source_x" ∈ columns df ∧ "title" ∈ columns df ∧ "journal" ∈ columns df ∧
  top_journals v =
    head_n 15 (value_counts ((λ r, r !! "journal") <$>
      filter (λ r, r !! "journal" ≠ Some (Str "Unknown")) (rows df))) ∧
  title_words v =
    head_n 20 (sort_values_desc
      (filtered_words (all_titles ((λ r, r !! "title") <$> rows df)))) ∧
  source_counts v =
    head_n 10 (value_counts ((λ r, r !! "source_x") <$> rows df)).
Proof.
  unfold analyze_data. intros H.
  apply bind_OK_inv in H as (year & Hyear & H).
  apply bind_OK_inv in H as (yc & Hyc & H).
  apply bind_OK_inv in H as (journal & Hjournal & H).
  apply bind_OK_inv in H as (journal' & Hjournal' & H).
  apply bind_OK_inv in H as (title & Htitle & H).
  apply bind_OK_inv in H as (lengths & Hlengths & H).
  apply bind_OK_inv in H as (source & Hsource & H).
  injection H as <-.
  apply getitem_inv in Hjournal as [Hj ->], Htitle as [Ht ->],
    Hsource as [Hs ->].
  unfold series_ne in Hjournal'.
  rewrite (loc_mask_apply df "journal"
             (λ v, bool_decide (v ≠ Some (Str "Unknown")))) in Hjournal'.
  assert (Hf : filter (λ r, bool_decide (r !! "journal" ≠ Some (Str "Unknown"))
                        = true) (rows df) =
               filter (λ r, r !! "journal" ≠ Some (Str "Unknown")) (rows df)).
  { apply list_filter_iff. intros r. by rewrite bool_decide_eq_true. }
  rewrite Hf in Hjournal'. apply getitem_inv in Hjournal' as [_ ->].
  by split_and!.
Qed.

Lemma top_journals_facts df v :
  analyze_data df = OK v →
  (∀ k n, (k, n) ∈ top_journals v →
     k ≠ Str "Unknown" ∧ 0 < n ∧
     n = length (filter (λ r, r !! "journal" = Some k) (rows df))) ∧
  length (top_journals v) ≤ 15 ∧
  descending (top_journals v).
Proof.
  intros H. apply analyze_data_inv in H as (_ & _ & _ & -> & _).
  unfold head_n. split_and!.
  - intros k n Hkn. apply elem_of_take in Hkn as (i & Hi & _).
    apply list_elem_of_lookup_2, elem_of_value_counts in Hi as [-> Hk].
    apply list_elem_of_fmap in Hk as (r & Hr & Hin).
    apply list_elem_of_filter in Hin as [Hne Hin].
    split; [congruence |]. rewrite occurrences_column.
    assert (Heq : filter (λ r, r !! "journal" = Some k)
               (filter (λ r, r !! "journal" ≠ Some (Str "Unknown")) (rows df)) =
             filter (λ r, r !! "journal" = Some k) (rows df)).
    { rewrite list_filter_filter. apply list_filter_iff. intros r'.
      split; [by intros [? _] |]. intros Hr'. split; [done |]. congruence. }
    rewrite Heq. split; [| done].
    assert (Hr' : r ∈ filter (λ r, r !! "journal" = Some k) (rows df))
      by by apply list_elem_of_filter.
    apply list_elem_of_lookup in Hr' as [i' Hi']. apply lookup_lt_Some in Hi'.
    lia.
  - rewrite length_take. lia.
  - apply descending_take, sort_values_desc_descending.
Qed.




End aggregator_facts.

(** * What cleaning does to a row *)

Section clean_row_facts.
Implicit Types (df : DataFrame) (r : row) (c : string).

Lemma clean_row_journal r :
  clean_row r !! "journal" = clean_journal (r !! "journal").
Proof. unfold clean_row. by rewrite lookup_set_cell_eq. Qed.


Lemma clean_row_year r :
  clean_row r !! "year" = extract_year (r !! "publish_time").
Proof.
  unfold clean_row.
  by rewrite !lookup_set_cell_ne, lookup_set_cell_eq by done.
Qed.

Lemma clean_row_other r c :
  c ≠ "journal" → c ≠ "abstract_word_count" → c ≠ "year" →
  clean_row r !! c = r !! c.
Proof.
  intros H1 H2 H3. unfold clean_row. by rewrite !lookup_set_cell_ne.
Qed.

Lemma rows_cleaned df :
  Forall2 (λ raw cl, cl = clean_row raw)
    (filter (λ r, survives r = true) (rows df)) (rows (cleaned df)).
Proof.
  unfold cleaned. cbn [rows]. apply Forall2_fmap_r, Forall_Forall2_diag.
  by apply Forall_true.
Qed.

Lemma elem_of_rows_cleaned df cl :
  cl ∈ rows (cleaned df) ↔
    ∃ raw, raw ∈ rows df ∧ survives raw = true ∧ cl = clean_row raw.
Proof.
  unfold cleaned. cbn [rows]. rewrite list_elem_of_fmap. split.
  - intros (raw & -> & [? ?]%list_elem_of_filter). by exists raw.
  - intros (raw & ? & ? & ->). exists raw. split; [done |].
    by apply list_elem_of_filter.
Qed.





Lemma with_column_fresh cols c : c ∉ cols → with_column cols c = cols ++ [c].
Proof. intros H. unfold with_column. by rewrite decide_False. Qed.


End clean_row_facts.

(** * The claims *)















(** C6.  In the cleaned table every year is an integer greater than 2000;
    the cleaned rows are, one for one and in order, the raw rows that
    survive; and a raw row survives exactly when its title is present and a
    year greater than 2000 is read in its date.  So a raw row with a null
    title, without a year, or with a year of 2000 or less is excluded. *)
Theorem year_after_2000 (df d : DataFrame) :
  load_and_clean_data df = OK d →
  (∀ cl, cl ∈ rows d → ∃ y : Z, cl !! "year" = Some (Num y) ∧ (2000 < y)%Z) ∧
  Forall2 (λ raw cl : row,
             cl !! "title" = raw !! "title" ∧
             cl !! "publish_time" = raw !! "publish_time" ∧
             cl !! "year" = extract_year (raw !! "publish_time"))
    (filter (λ r, survives r = true) (rows df)) (rows d) ∧
  (∀ raw : row,
     survives raw = true ↔
       is_Some (raw !! "title") ∧
       ∃ y, extract_year (raw !! "publish_time") = Some (Num y) ∧ (2000 < y)%Z).
Proof.
  intros [_ ->]%load_and_clean_data_inv. split_and!.
  - intros cl (raw & _ & Hs & ->)%elem_of_rows_cleaned.
    apply survives_true in Hs as [_ (y & Hy & Hgt)].
    exists y. by rewrite clean_row_year.
  - eapply Forall2_impl; [apply rows_cleaned |]. intros raw cl ->.
    by rewrite !clean_row_other, clean_row_year by done.
  - apply survives_true.
Qed.

Lemma year_after_2000_witness :
  load_and_clean_data Samples.raw = OK Samples.clean ∧
  ∀ cl, cl ∈ rows Samples.clean →
    ∃ y : Z, cl !! "year" = Some (Num y) ∧ (2000 < y)%Z.
Proof.
  assert (H : load_and_clean_data Samples.raw = OK Samples.clean)
    by (vm_compute; reflexivity).
  split; [exact H |].
  exact (proj1 (year_after_2000 Samples.raw Samples.clean H)).
Defined.



(** C8.  The Top Journals view of a cleaned table never lists "Unknown",
    has at most 15 entries, and its counts never increase along the list;
    each entry counts the cleaned rows with that journal.  A surviving raw
    row whose journal is null is cleaned to "Unknown" and is counted under
    no entry. *)
Theorem top_journals_known_top15 (df d : DataFrame) (v : Views) :
  load_and_clean_data df = OK d →
  analyze_data d = OK v →
  (∀ k n, (k, n) ∈ top_journals v →
     k ≠ Str "Unknown" ∧ 0 < n ∧
     n = length (filter (λ cl : row, cl !! "journal" = Some k) (rows d))) ∧
  length (top_journals v) ≤ 15 ∧
  descending (top_journals v) ∧
  (∀ raw : row, raw ∈ rows df → survives raw = true →
     raw !! "journal" = None →
     ∃ cl, cl ∈ rows d ∧ cl !! "journal" = Some (Str "Unknown") ∧
           ∀ k n, (k, n) ∈ top_journals v → cl !! "journal" ≠ Some k).
Proof.
  intros [_ ->]%load_and_clean_data_inv Hv.
  destruct (top_journals_facts _ _ Hv) as (Hk & Hlen & Hdesc).
  split_and!; [done | done | done |].
  intros raw Hin Hs Hj. exists (clean_row raw). split_and!.
  - apply elem_of_rows_cleaned. by exists raw.
  - by rewrite clean_row_journal, Hj.
  - intros k n Hkn. rewrite clean_row_journal, Hj. simpl.
    destruct (Hk k n Hkn) as [Hne _]. congruence.
Qed.

Lemma top_journals_known_top15_witness :
  load_and_clean_data Samples.raw = OK Samples.clean ∧
  analyze_data Samples.clean = OK Samples.views ∧
  length (top_journals Samples.views) ≤ 15 ∧
  descending (top_journals Samples.views).
Proof.
  assert (H : load_and_clean_data Samples.raw = OK Samples.clean)
    by (vm_compute; reflexivity).
  assert (Hv : analyze_data Samples.clean = OK Samples.views)
    by (vm_compute; reflexivity).
  split_and!; [exact H | exact Hv | |].
  - exact (proj1 (proj2 (top_journals_known_top15 _ _ _ H Hv))).
  - exact (proj1 (proj2 (proj2 (top_journals_known_top15 _ _ _ H Hv)))).
Defined.

(** C9.  When the raw table has no column called [year] or
    [abstract_word_count], cleaning appends exactly these two columns; the
    cleaned rows come from a subsequence of the raw rows, in order; and in
    each of them every raw column other than [journal] holds what it held
    in the raw row -- in particular the title, the abstract, the date, the
    source and the passthrough fields. *)
Theorem cleaner_drops_and_derives (df d : DataFrame) :
  load_and_clean_data df = OK d →
  "year" ∉ columns df → "abstract_word_count" ∉ columns df →
  columns d = columns df ++ ["year"; "abstract_word_count"] ∧
  ∃ kept, kept `sublist_of` rows df ∧
    Forall2 (λ raw cl : row,
               (∀ c, c ∈ columns df → c ≠ "journal" → cl !! c = raw !! c) ∧
               (∀ c, c ∈ ["title"; "abstract"; "publish_time"; "source_x";
                          "cord_uid"; "authors"; "url"] →
                     cl !! c = raw !! c))
      kept (rows d).
Proof.
  intros [_ ->]%load_and_clean_data_inv Hy Hw. split.
  - unfold cleaned. cbn [columns]. rewrite (with_column_fresh _ "year") by done.
    rewrite with_column_fresh.
    + by rewrite <- app_assoc.
    + rewrite elem_of_app, list_elem_of_singleton. by intros [? | ?].
  - exists (filter (λ r, survives r = true) (rows df)).
    split; [apply sublist_filter |].
    eapply Forall2_impl; [apply rows_cleaned |]. intros raw cl ->. split.
    + intros c Hc Hj. apply clean_row_other; [done | |]; by intros ->.
    + intros c Hc.
      repeat (apply elem_of_cons in Hc as [-> | Hc]);
        try (by apply clean_row_other).
      by apply elem_of_nil in Hc.
Qed.

Lemma cleaner_drops_and_derives_witness :
  load_and_clean_data Samples.raw = OK Samples.clean ∧
  ("year" ∉ columns Samples.raw) ∧
  ("abstract_word_count" ∉ columns Samples.raw) ∧
  columns Samples.clean =
    columns Samples.raw ++ ["year"; "abstract_word_count"].
Proof.
  assert (H : load_and_clean_data Samples.raw = OK Samples.clean)
    by (vm_compute; reflexivity).
  assert (Hy : "year" ∉ columns Samples.raw) by compute_done.
  assert (Hw : "abstract_word_count" ∉ columns Samples.raw) by compute_done.
  split_and!; [exact H | exact Hy | exact Hw |].
  exact (proj1 (cleaner_drops_and_derives Samples.raw Samples.clean H Hy Hw)).
Defined.

(** C10.  Each entry of the Source Distribution view of a cleaned table
    counts the cleaned rows that hold that source, so a row with a null
    source is counted under no entry: the counts add up to at most the
    number of rows with a source, and to exactly that number when fewer
    than ten sources are listed.  Cleaning itself keeps a surviving row
    whose source is null. *)
Theorem source_counts_skip_null (df d : DataFrame) (v : Views) :
  load_and_clean_data df = OK d →
  analyze_data d = OK v →
  (∀ k n, (k, n) ∈ source_counts v →
     0 < n ∧
     n = length (filter (λ cl : row, cl !! "source_x" = Some k) (rows d))) ∧
  sum_list (source_counts v).*2 ≤
    length (filter (λ cl : row, is_Some (cl !! "source_x")) (rows d)) ∧
  (length (source_counts v) < 10 →
   sum_list (source_counts v).*2 =
     length (filter (λ cl : row, is_Some (cl !! "source_x")) (rows d))) ∧
  (∀ raw : row, raw ∈ rows df → survives raw = true →
     raw !! "source_x" = None →
     ∃ cl, cl ∈ rows d ∧ cl !! "source_x" = None ∧
           cl !! "title" = raw !! "title").
Proof.
  intros [_ ->]%load_and_clean_data_inv Hv.
  apply analyze_data_inv in Hv as (_ & _ & _ & _ & _ & ->).
  set (s := (λ r : row, r !! "source_x") <$> rows (cleaned df)).
  unfold head_n. split_and!.
  - intros k n Hkn. apply elem_of_take in Hkn as (i & Hi & _).
    apply list_elem_of_lookup_2, elem_of_value_counts in Hi as [-> Hk].
    unfold s. rewrite occurrences_column. split; [| done].
    apply list_elem_of_fmap in Hk as (cl & Hcl & Hin).
    assert (Hf : cl ∈ filter (λ cl : row, cl !! "source_x" = Some k)
                   (rows (cleaned df))) by by apply list_elem_of_filter.
    apply list_elem_of_lookup in Hf as [j Hj]. apply lookup_lt_Some in Hj. lia.
  - rewrite fmap_take.
    etrans; [apply sum_list_take_le |].
    rewrite value_counts_total. unfold s. by rewrite length_series_dropna.
  - intros Hlen. rewrite length_take in Hlen.
    rewrite take_ge by lia.
    rewrite value_counts_total. unfold s. by rewrite length_series_dropna.
  - intros raw Hin Hs Hx. exists (clean_row raw).
    rewrite !clean_row_other, Hx by done. split_and!; [| done | done].
    apply elem_of_rows_cleaned. by exists raw.
Qed.

Lemma source_counts_skip_null_witness :
  load_and_clean_data Samples.raw = OK Samples.clean ∧
  analyze_data Samples.clean = OK Samples.views ∧
  sum_list (source_counts Samples.views).*2 ≤
    length (filter (λ cl : row, is_Some (cl !! "source_x"))
              (rows Samples.clean)).
Proof.
  assert (H : load_and_clean_data Samples.raw = OK Samples.clean)
    by (vm_compute; reflexivity).
  assert (Hv : analyze_data Samples.clean = OK Samples.views)
    by (vm_compute; reflexivity).
  split_and!; [exact H | exact Hv |].
  exact (proj1 (proj2 (source_counts_skip_null _ _ _ H Hv))).
Defined.

(** * The scenarios of the specification, evaluated *)

Example scenario_journal_trimmed :
  ∃ d cl, load_and_clean_data Samples.raw = OK d ∧ rows d !! 0 = Some cl ∧
          cl !! "journal" = Some (Str "Nature").
Proof. eexists _, _. split_and!; by vm_compute. Qed.

Example scenario_null_journals_unknown :
  ∃ d cl, load_and_clean_data Samples.raw = OK d ∧ rows d !! 1 = Some cl ∧
          cl !! "journal" = Some (Str "Unknown") ∧
          cl !! "abstract_word_count" = Some (Num 0).
Proof. eexists _, _. split_and!; by vm_compute. Qed.

Example scenario_title_words :
  findall word_pattern (lower "COVID and the Immune Response") =
    ["covid"; "and"; "the"; "immune"; "response"] ∧
  filtered_words (lower "COVID and the Immune Response") =
    [("covid", 1); ("immune", 1); ("response", 1)].
Proof. split; by vm_compute. Qed.

(** Inside a longer run of digits the first four are taken. *)
Example extract_year_compact_date :
  extract_year (Some (Str "20210315")) = Some (Num 2021) ∧
  extract_year (Some (Num 20210315)) = Some (Num 2021).
Proof. split; by vm_compute. Qed.
